(** * Energy post-processing of the H2 Jordan-Wigner notebook

    A shallow embedding of the two computations of

      samples/azure-quantum/chemistry/Hamiltonian/
        Approximate Energy using Jordan-Wigner transformation.ipynb

    - the cell that flattens [fermion_terms] into the list [coeffs]
      (the "Coefficient Expander" of the specification), and
    - the function [calc_energy] (the "Energy Aggregator").

    Numbers.  The notebook computes with Python floats, that is in
    binary64.  Two embeddings of [calc_energy] are given:

    - [B64.calc_energy], over the primitive binary64 floats, every
      operation rounded as in the notebook; statements about the numbers
      that the notebook returns are made of it;
    - [calc_energy], over the exact rationals [Q] (every finite float is a
      rational, and the operations are the exact ones), the real-number
      reading of the specification.  Statements about values in it use
      [==] (equality of rationals) unless both sides are built by the same
      operations in the same order, where [=] holds.

    Dictionaries are [gmap string _]; Python lists are [list]. *)

From Stdlib Require Import QArith Lia Sorted.
From Corelib Require Import PrimFloat.
From stdpp Require Import gmap strings list fin_maps pretty.

(** A decimal literal in [float_scope] stands for the nearest binary64
    value, as a float literal of Python does. *)
Set Warnings "-inexact-float".

Local Open Scope string_scope.
Local Open Scope list_scope.
Local Open Scope Q_scope.

(** ** Outcomes *)

(** The three failures named by the specification (section 7). *)
Inductive error : Set :=
  | InvalidEncoding
  | LengthMismatch
  | InvalidResult.

(** What running a piece of the notebook gives: a value, or a raised error. *)
Inductive outcome (A : Type) : Type :=
  | Returned (a : A)
  | Raised (e : error).

Arguments Returned {A} a.
Arguments Raised {A} e.

(** [Returns o v]: the run returned a number equal to [v]. *)
Definition Returns (o : outcome Q) (v : Q) : Prop :=
  match o with
  | Returned a => a == v
  | Raised _ => False
  end.

(** ** Python built-ins used by the notebook *)

Module Py.

(** [d.get(key, dflt)] *)
Definition get (d : gmap string Q) (key : string) (dflt : Q) : Q :=
  match d !! key with
  | Some v => v
  | None => dflt
  end.

(** [zip(xs, ys)]: stops at the end of the shorter list. *)
Definition zip {A B : Type} (xs : list A) (ys : list B) : list (A * B) :=
  combine xs ys.

(** [enumerate(xs)] *)
Definition enumerate {A : Type} (xs : list A) : list (nat * A) :=
  combine (seq 0 (length xs)) xs.

(** [sum(xs)]: starts from 0 and adds the elements from left to right. *)
Definition sum (xs : list Q) : Q :=
  fold_left Qplus xs 0.

End Py.

(** ** The Energy Aggregator: [calc_energy] *)

Section Aggregator.

(** [energy_offset] is a global of the notebook, read by [calc_energy]. *)
Variable energy_offset : Q.

(** <<
    def calc_energy(coeffs, results):
        return sum([(2. * res.get("0", 0.0) - 1.) * coeff
                    for coeff, res in zip(coeffs, results)]) + energy_offset
    >>
    The body has no [raise]; [zip], [dict.get] with a default, the
    arithmetic and [sum] raise nothing on a list of numbers and a list of
    dictionaries, so the call always returns.  Here the numbers are
    rationals and the operations exact; [B64.calc_energy] below is the
    same body with the rounded operations of binary64. *)
Definition calc_energy (coeffs : list Q) (results : list (gmap string Q))
  : outcome Q :=
  Returned
    (Py.sum (map (fun '(coeff, res) => (2 * Py.get res "0" 0.0 - 1) * coeff)
                 (Py.zip coeffs results))
     + energy_offset).

End Aggregator.

(** The list comprehension of [calc_energy], for use in statements. *)
Abbreviation contributions coeffs results :=
  (map (fun '(coeff, res) => (2 * Py.get res "0" 0.0 - 1) * coeff)
       (Py.zip coeffs results)).

(** ** The specification's formula for the aggregate (section 4.2)

    [signed_value_i = 2 * result[i].get("0", 0.0) - 1], and the output is
    [sum(signed_value_i * coeff_i for i in 0..N-1) + offset]. *)

Definition signed_value (results : list (gmap string Q)) (i : nat) : Q :=
  2 * Py.get (nth i results ∅) "0" 0.0 - 1.

Definition spec_energy (N : nat) (coeffs : list Q)
    (results : list (gmap string Q)) (offset : Q) : Q :=
  Py.sum (map (fun i => signed_value results i * nth i coeffs 0) (seq 0 N))
  + offset.

(** ** [calc_energy] in binary64 *)

Module B64.

Local Open Scope float_scope.

(** [d.get(key, dflt)] on a dictionary of floats. *)
Definition get (d : gmap string float) (key : string) (dflt : float)
  : float :=
  match d !! key with
  | Some v => v
  | None => dflt
  end.

(** [sum(xs)]: starts from 0 and adds the elements from left to right, each
    addition rounded (the notebook records Python 3.9, whose [sum] does
    not compensate). *)
Definition sum (xs : list float) : float :=
  fold_left PrimFloat.add xs 0.

(** The list comprehension of [calc_energy]:
    [[(2. * res.get("0", 0.0) - 1.) * coeff
      for coeff, res in zip(coeffs, results)]]. *)
Definition comprehension (coeffs : list float)
    (results : list (gmap string float)) : list float :=
  map (fun '(coeff, res) => (2 * get res "0" 0.0 - 1) * coeff)
      (Py.zip coeffs results).

(** [calc_energy], the global [energy_offset] being the first argument. *)
Definition calc_energy (energy_offset : float) (coeffs : list float)
    (results : list (gmap string float)) : outcome float :=
  Returned (sum (comprehension coeffs results) + energy_offset).

(** The specification's formula (section 4.2), with the operations of
    binary64. *)
Definition signed_value (results : list (gmap string float)) (i : nat)
  : float :=
  2 * get (nth i results ∅) "0" 0.0 - 1.

Definition spec_energy (N : nat) (coeffs : list float)
    (results : list (gmap string float)) (offset : float) : float :=
  sum (map (fun i => signed_value results i * nth i coeffs 0) (seq 0 N))
  + offset.

(** [0 <= p <= 1] *)
Definition in_unit_interval (p : float) : bool :=
  (0 <=? p) && (p <=? 1).

End B64.

(** ** The Coefficient Expander: the cell that builds [coeffs] *)

Section Expander.

(** The types of the two components of a term: [qubits] (the
    specification's Measurement Operator ID) and [coeff].  The cell only
    takes the pairs apart and hands [coeff] on, so any two types do. *)
Context {OpId Coeff : Type}.

(** [ExpandedCoefficients_] is imported from the Q# namespace
    [Microsoft.Quantum.Chemistry.Hamiltonian]; the notebook does not hold
    its code.  It is called with a coefficient and a term type and gives
    the list that the cell appends. *)
Variable ExpandedCoefficients_ : Coeff -> nat -> list Q.

(** <<
    for (qubits, coeff) in terms:
        coeffs += ExpandedCoefficients_(coeff=coeff, termType=term_type)
    >>
    as a function from the list [coeffs] before the loop to the list
    after it. *)
Definition for_terms (term_type : nat) (terms : list (OpId * Coeff))
    (coeffs : list Q) : list Q :=
  fold_left
    (fun coeffs '(qubits, coeff) =>
       coeffs ++ ExpandedCoefficients_ coeff term_type)
    terms coeffs.

(** <<
    coeffs = []
    for term_type, terms in enumerate(fermion_terms):
        for (qubits, coeff) in terms:
            coeffs += ExpandedCoefficients_(coeff=coeff, termType=term_type)
    coeffs
    >>
    The cell has no [raise] and no test on [qubits] or [coeff]. *)
Definition coeffs_cell (fermion_terms : list (list (OpId * Coeff)))
  : outcome (list Q) :=
  Returned
    (fold_left
       (fun coeffs '(term_type, terms) => for_terms term_type terms coeffs)
       (Py.enumerate fermion_terms) []).

(** The same list written without an accumulator: the expansions of all
    pairs, in term-type order and then pair order. *)
Definition expansions (fermion_terms : list (list (OpId * Coeff)))
  : list Q :=
  flat_map
    (fun '(term_type, terms) =>
       flat_map (fun '(qubits, coeff) =>
                   ExpandedCoefficients_ coeff term_type) terms)
    (Py.enumerate fermion_terms).

End Expander.

(** The number of operators of an input when every expansion for a term
    type has [arity] of that type entries: the number of terms of each type
    times the arity of the type, summed over the term types.  It serves to
    say how many operators an example input has. *)
Definition total_operator_count {OpId Coeff : Type} (arity : nat -> nat)
    (fermion_terms : list (list (OpId * Coeff))) : nat :=
  list_sum (map (fun '(term_type, terms) => (length terms * arity term_type)%nat)
                (Py.enumerate fermion_terms)).

(** ** Sample inputs used in the examples below *)

(** An expansion that repeats the coefficient [arity termType] times. *)
Definition repeated (arity : nat -> nat) (coeff : Q) (termType : nat)
  : list Q :=
  repeat coeff (arity termType).

(** Arities 1, 1, 2 and 8 for term types 0, 1, 2 and 3. *)
Definition sample_arity (termType : nat) : nat :=
  match termType with
  | 2%nat => 2%nat
  | 3%nat => 8%nat
  | _ => 1%nat
  end.

(** ** The cells that submit the jobs and collect their results *)

(** [f"Hamiltonian term {n_op}"]: the decimal digits of [n_op] after the
    fixed text. *)
Definition jobName (n_op : nat) : string :=
  "Hamiltonian term " +:+ pretty n_op.

(** [coeff != 0.0] *)
Definition nonzero (coeff : Q) : bool :=
  negb (Qeq_bool coeff 0.0).

Section Jobs.

(** Job handles and job identifiers belong to [qsharp.azure]; the notebook
    only hands them on. *)
Context {Job JobId : Type}.

(** [qsharp.azure.submit(GetHamiltonianTermH2, nOp=.., shots=.., jobName=..)],
    [j.id] and [qsharp.azure.output(..)], taken as functions of their
    arguments; what the service does is not part of the notebook. *)
Variable submit : nat -> nat -> string -> Job.
Variable job_id : Job -> JobId.
Variable output : JobId -> gmap string Q.

(** <<
    jobs = [
        qsharp.azure.submit(GetHamiltonianTermH2, nOp=n_op, shots=1000,
                            jobName=f"Hamiltonian term {n_op}")
        for n_op, coeff in enumerate(coeffs) if coeff != 0.0
    ]
    >>
    The cell for the hardware target is the same comprehension. *)
Definition jobs_cell (coeffs : list Q) : list Job :=
  map (fun '(n_op, coeff) => submit n_op 1000 (jobName n_op))
      (List.filter (fun '(n_op, coeff) => nonzero coeff)
                   (Py.enumerate coeffs)).

(** [results = [qsharp.azure.output(j.id) for j in jobs]] *)
Definition results_cell (jobs : list Job) : list (gmap string Q) :=
  map (fun j => output (job_id j)) jobs.

(** [calc_energy(coeffs, results)], with [results] as the two cells above
    leave it. *)
Definition energy_cell (energy_offset : Q) (coeffs : list Q) : outcome Q :=
  calc_energy energy_offset coeffs (results_cell (jobs_cell coeffs)).

(** What the service reports for the job of operator [n_op]. *)
Definition measured (n_op : nat) : gmap string Q :=
  output (job_id (submit n_op 1000 (jobName n_op))).

End Jobs.

(** The operator indices for which a job is submitted, in the order of
    submission. *)
Definition nonzero_ops (coeffs : list Q) : list nat :=
  map fst (List.filter (fun '(n_op, coeff) => nonzero coeff)
                       (Py.enumerate coeffs)).

(** [nonzero_ops] counted from a first index [start]; the form used in the
    proofs by induction. *)
Fixpoint ops_from (start : nat) (coeffs : list Q) : list nat :=
  match coeffs with
  | [] => []
  | coeff :: coeffs =>
      if nonzero coeff then start :: ops_from (S start) coeffs
      else ops_from (S start) coeffs
  end.

(** A stand-in for the service in the examples: a job is its operator index
    and name, and the reported frequency of "0" is 1.0 for an even operator
    index and 0.25 for an odd one. *)
Definition sample_submit (nOp shots : nat) (name : string) : nat * string :=
  (nOp, name).

Definition sample_output (nOp : nat) : gmap string Q :=
  if Nat.even nOp then {["0" := 1.0]} else {["0" := 0.25; "1" := 0.75]}.

(** * Properties of [calc_energy] *)

(** The comprehension over [zip] and the indexed terms of the specification
    are the same list, up to the shorter of the two lengths. *)
Lemma terms_by_index (coeffs : list Q) (results : list (gmap string Q)) :
  map (fun '(coeff, res) => (2 * Py.get res "0" 0.0 - 1) * coeff)
      (Py.zip coeffs results)
  = map (fun i => signed_value results i * nth i coeffs 0)
        (seq 0 (Nat.min (length coeffs) (length results))).
Proof.
  unfold Py.zip.
  revert results; induction coeffs as [|c coeffs IH]; intros [|r results];
    try reflexivity.
  cbn [combine map length Nat.min seq].
  f_equal.
  rewrite IH, <- seq_shift, map_map.
  reflexivity.
Qed.

Lemma calc_energy_min (offset : Q) (coeffs : list Q)
    (results : list (gmap string Q)) :
  calc_energy offset coeffs results
  = Returned (spec_energy (Nat.min (length coeffs) (length results))
                          coeffs results offset).
Proof.
  unfold calc_energy, spec_energy.
  rewrite terms_by_index.
  reflexivity.
Qed.

(** A comprehension over [zip], read by index; for any types and any body
    [g].  *)
Lemma zip_by_index {A B C : Type} (g : A -> B -> C) (da : A) (db : B)
    (xs : list A) (ys : list B) :
  map (fun '(x, y) => g x y) (Py.zip xs ys)
  = map (fun i => g (nth i xs da) (nth i ys db))
        (seq 0 (Nat.min (length xs) (length ys))).
Proof.
  unfold Py.zip.
  revert ys; induction xs as [|x xs IH]; intros [|y ys]; try reflexivity.
  cbn [combine map length Nat.min seq]. f_equal.
  rewrite IH, <- seq_shift, map_map. reflexivity.
Qed.

Lemma b64_calc_energy_min (offset : float) (coeffs : list float)
    (results : list (gmap string float)) :
  B64.calc_energy offset coeffs results
  = Returned (B64.spec_energy (Nat.min (length coeffs) (length results))
                              coeffs results offset).
Proof.
  unfold B64.calc_energy, B64.spec_energy, B64.comprehension.
  do 3 f_equal.
  exact (zip_by_index
           (fun coeff res => (2 * B64.get res "0" 0.0 - 1) * coeff)%float
           0%float ∅ coeffs results).
Qed.

(** C1, as stated, fails on its example: for coefficients [0.5, -0.3],
    results [{"0": 1.0}, {"0": 0.0}] and offset -1.1 the notebook's
    arithmetic gives -0.30000000000000004, which is not the float -0.3. *)
Lemma example_is_not_minus_0_3 :
  B64.calc_energy (-1.1)%float [0.5; -0.3]%float
                  [ {["0" := 1.0%float]}; {["0" := 0.0%float]} ]
  = Returned (-0.30000000000000004)%float
  /\ B64.calc_energy (-1.1)%float [0.5; -0.3]%float
                     [ {["0" := 1.0%float]}; {["0" := 0.0%float]} ]
     <> Returned (-0.3)%float
  /\ ((-0.30000000000000004) =? (-0.3))%float = false.
Proof.
  assert (Hrun : B64.calc_energy (-1.1)%float [0.5; -0.3]%float
                   [ {["0" := 1.0%float]}; {["0" := 0.0%float]} ]
                 = Returned (-0.30000000000000004)%float)
    by (vm_compute; reflexivity).
  assert (Hne : ((-0.30000000000000004) =? (-0.3))%float = false)
    by (vm_compute; reflexivity).
  split; [exact Hrun|]. split; [|exact Hne].
  rewrite Hrun. intros H.
  pose (is_minus_0_3 := fun o : outcome float =>
          match o with
          | Returned a => (a =? -0.3)%float
          | Raised _ => false
          end).
  assert (E : is_minus_0_3 (Returned (-0.30000000000000004)%float) = true)
    by (rewrite H; vm_compute; reflexivity).
  vm_compute in E. discriminate.
Qed.

(** C1, amended. For coefficient and result sequences of one length N and
    any offset, [calc_energy] returns exactly the sum over i in 0..N-1 of
    (2 * result[i].get("0", 0.0) - 1) * coeff[i], taken from left to right,
    plus the offset, added once at the end: in binary64, every operation
    rounded, as the notebook computes it, and in exact arithmetic alike.
    For coefficients [0.5, -0.3], results [{"0": 1.0}, {"0": 0.0}] and
    offset -1.1 the notebook's value is -0.30000000000000004, less than
    1e-16 away from -0.3. *)
Theorem calc_energy_is_spec_sum :
  (forall (offset : float) (N : nat) (coeffs : list float)
          (results : list (gmap string float)),
      length coeffs = N -> length results = N ->
      B64.calc_energy offset coeffs results
      = Returned (B64.spec_energy N coeffs results offset))
  /\ (forall (offset : Q) (N : nat) (coeffs : list Q)
             (results : list (gmap string Q)),
        length coeffs = N -> length results = N ->
        calc_energy offset coeffs results
        = Returned (spec_energy N coeffs results offset))
  /\ B64.calc_energy (-1.1)%float [0.5; -0.3]%float
                     [ {["0" := 1.0%float]}; {["0" := 0.0%float]} ]
     = Returned (-0.30000000000000004)%float
  /\ (PrimFloat.abs (-0.30000000000000004 - -0.3) <? 1e-16)%float = true.
Proof.
  split; [|split; [|split]].
  - intros offset N coeffs results Hc Hr.
    rewrite b64_calc_energy_min, Hc, Hr, Nat.min_id. reflexivity.
  - intros offset N coeffs results Hc Hr.
    rewrite calc_energy_min, Hc, Hr, Nat.min_id. reflexivity.
  - vm_compute. reflexivity.
  - vm_compute. reflexivity.
Qed.

Lemma calc_energy_is_spec_sum_witness :
  length [0.5; -0.3]%float = 2%nat
  /\ length [ ({["0" := 1.0%float]} : gmap string float);
              {["0" := 0.0%float]} ] = 2%nat
  /\ B64.calc_energy (-1.1)%float [0.5; -0.3]%float
                     [ {["0" := 1.0%float]}; {["0" := 0.0%float]} ]
     = Returned (B64.spec_energy 2 [0.5; -0.3]%float
                   [ {["0" := 1.0%float]}; {["0" := 0.0%float]} ]
                   (-1.1)%float).
Proof.
  split; [reflexivity|].
  split; [reflexivity|].
  apply (proj1 calc_energy_is_spec_sum (-1.1)%float 2%nat); reflexivity.
Defined.

(** ** Sums of rationals *)

Lemma sum_from (xs : list Q) (a : Q) :
  fold_left Qplus xs a == a + Py.sum xs.
Proof.
  unfold Py.sum.
  revert a; induction xs as [|x xs IH]; intros a; cbn [fold_left].
  - ring.
  - rewrite (IH (a + x)), (IH (0 + x)). ring.
Qed.

Lemma sum_cons (x : Q) (xs : list Q) :
  Py.sum (x :: xs) == x + Py.sum xs.
Proof.
  unfold Py.sum at 1; cbn [fold_left].
  rewrite sum_from. ring.
Qed.

Lemma sum_app (xs ys : list Q) :
  Py.sum (xs ++ ys) == Py.sum xs + Py.sum ys.
Proof.
  induction xs as [|x xs IH]; cbn [app].
  - unfold Py.sum at 2; cbn. ring.
  - rewrite !sum_cons, IH. ring.
Qed.

Lemma sum_zeros (xs : list Q) :
  Forall (fun x => x == 0) xs -> Py.sum xs == 0.
Proof.
  induction 1 as [|x xs Hx _ IH].
  - reflexivity.
  - rewrite sum_cons, Hx, IH. ring.
Qed.

(** ** The list that [calc_energy] sums *)

Lemma contributions_app (cs1 cs2 : list Q) (rs1 rs2 : list (gmap string Q)) :
  length cs1 = length rs1 ->
  contributions (cs1 ++ cs2) (rs1 ++ rs2)
  = contributions cs1 rs1 ++ contributions cs2 rs2.
Proof.
  unfold Py.zip.
  revert rs1; induction cs1 as [|c cs1 IH]; intros [|r rs1] Hlen;
    try discriminate; [reflexivity|].
  cbn [app combine map]. f_equal.
  apply IH. injection Hlen; trivial.
Qed.

Lemma contributions_take (coeffs : list Q) (results : list (gmap string Q)) :
  let n := Nat.min (length coeffs) (length results) in
  contributions (take n coeffs) (take n results) = contributions coeffs results.
Proof.
  unfold Py.zip.
  revert results; induction coeffs as [|c coeffs IH]; intros [|r results];
    try reflexivity.
  cbn [length Nat.min take combine map]. f_equal. apply IH.
Qed.

(** ** Lengths that differ *)

(** [zip] does not look beyond the length of the shorter list. *)
Lemma zip_surplus_r {A B : Type} (xs : list A) (ys surplus : list B) :
  (length xs <= length ys)%nat ->
  Py.zip xs (take (length xs) ys ++ surplus) = Py.zip xs ys.
Proof.
  unfold Py.zip.
  revert ys; induction xs as [|x xs IH]; intros [|y ys] Hle;
    cbn [length] in *; try reflexivity; try lia.
  cbn [take app combine]. f_equal. apply IH. lia.
Qed.

Lemma zip_surplus_l {A B : Type} (xs surplus : list A) (ys : list B) :
  (length ys <= length xs)%nat ->
  Py.zip (take (length ys) xs ++ surplus) ys = Py.zip xs ys.
Proof.
  unfold Py.zip.
  revert xs; induction ys as [|y ys IH]; intros [|x xs] Hle;
    cbn [length] in *; try lia.
  - destruct surplus; reflexivity.
  - cbn [take app]. destruct surplus; reflexivity.
  - cbn [take app combine]. f_equal. apply IH. lia.
Qed.

(** C3. Whatever the two lengths, and so also when they differ,
    [calc_energy] raises no error: it returns the sum over the first
    min(len(coeffs), len(results)) index-aligned pairs plus the offset, which
    is what it returns for the two sequences cut to that length; the
    entries of the longer sequence beyond it are ignored. *)
Theorem calc_energy_truncates (offset : Q) (coeffs : list Q)
    (results : list (gmap string Q)) :
  let n := Nat.min (length coeffs) (length results) in
  calc_energy offset coeffs results
  = Returned (spec_energy n coeffs results offset)
  /\ calc_energy offset coeffs results
     = calc_energy offset (take n coeffs) (take n results)
  /\ forall e, calc_energy offset coeffs results <> Raised e.
Proof.
  intros n. split; [apply calc_energy_min|]. split.
  - unfold calc_energy. subst n. rewrite contributions_take. reflexivity.
  - intros e. discriminate.
Qed.

(** C2, as stated, fails: with three coefficients and two results
    [calc_energy] returns a number (here -0.3) and raises no
    LengthMismatch. *)
Lemma length_mismatch_not_raised :
  let coeffs := [0.5; -0.3; 0.25] in
  let results : list (gmap string Q) := [ {["0" := 1.0]}; {["0" := 0.0]} ] in
  length coeffs = 3%nat /\ length results = 2%nat
  /\ calc_energy (-1.1) coeffs results <> Raised LengthMismatch
  /\ Returns (calc_energy (-1.1) coeffs results) (-0.3).
Proof.
  cbv zeta. split; [reflexivity|]. split; [reflexivity|].
  split; [discriminate|]. vm_compute. reflexivity.
Qed.

(** C2, amended. For sequences whose lengths differ, [calc_energy] makes no
    length check and raises no LengthMismatch: it returns an energy value,
    the same whatever follows the first [n] entries of the longer sequence,
    [n] being the length of the shorter one. *)
Theorem calc_energy_no_length_check (offset : Q) (coeffs : list Q)
    (results : list (gmap string Q)) :
  length coeffs <> length results ->
  calc_energy offset coeffs results <> Raised LengthMismatch
  /\ (exists v, calc_energy offset coeffs results = Returned v)
  /\ ((length coeffs < length results)%nat ->
      forall surplus,
        calc_energy offset coeffs (take (length coeffs) results ++ surplus)
        = calc_energy offset coeffs results)
  /\ ((length results < length coeffs)%nat ->
      forall surplus,
        calc_energy offset (take (length results) coeffs ++ surplus) results
        = calc_energy offset coeffs results).
Proof.
  intros _. split; [discriminate|]. split; [eexists; reflexivity|].
  unfold calc_energy.
  split; intros Hlt surplus.
  - rewrite zip_surplus_r by lia. reflexivity.
  - rewrite zip_surplus_l by lia. reflexivity.
Qed.

Lemma calc_energy_no_length_check_witness :
  calc_energy (-1.1) [0.5; -0.3; 0.25] [ {["0" := 1.0]}; {["0" := 0.0]} ]
  <> Raised LengthMismatch
  /\ (exists v,
        calc_energy (-1.1) [0.5; -0.3; 0.25]
                    [ {["0" := 1.0]}; {["0" := 0.0]} ] = Returned v).
Proof.
  pose proof (calc_energy_no_length_check (-1.1) [0.5; -0.3; 0.25]
                [ {["0" := 1.0]}; {["0" := 0.0]} ]) as H.
  cbn [length] in H.
  destruct H as (H1 & H2 & _); [lia|].
  split; assumption.
Defined.

(** ** Frequencies outside [0,1] *)

(** In binary64 as in [Q], the comprehension of two aligned prefixes
    followed by two other lists is the two comprehensions one after the
    other. *)
Lemma b64_comprehension_app (cs1 cs2 : list float)
    (rs1 rs2 : list (gmap string float)) :
  length cs1 = length rs1 ->
  B64.comprehension (cs1 ++ cs2) (rs1 ++ rs2)
  = B64.comprehension cs1 rs1 ++ B64.comprehension cs2 rs2.
Proof.
  unfold B64.comprehension, Py.zip.
  revert rs1; induction cs1 as [|c cs1 IH]; intros [|r rs1] Hlen;
    try discriminate; [reflexivity|].
  cbn [app combine map]. f_equal.
  apply IH. injection Hlen; trivial.
Qed.

(** C4, as stated, fails: for the result {"0": 1.4}, whose frequency is
    not in [0,1], the coefficient 0.5 and the offset 0, [calc_energy] raises
    no InvalidResult; it returns 0.8999999999999999. *)
Lemma invalid_result_not_raised :
  let result : gmap string float := {["0" := 1.4%float]} in
  B64.in_unit_interval (B64.get result "0" 0.0%float) = false
  /\ B64.calc_energy 0%float [0.5%float] [result] <> Raised InvalidResult
  /\ B64.calc_energy 0%float [0.5%float] [result]
     = Returned 0.8999999999999999%float.
Proof.
  cbv zeta. split; [|split].
  - vm_compute. reflexivity.
  - discriminate.
  - vm_compute. reflexivity.
Qed.

(** C4, amended. [calc_energy] makes no range check: a result whose
    frequency [p] for "0" lies outside [0,1] raises no InvalidResult; an
    energy is returned, in which the result enters like any other, its
    place in the summed list holding (2 * p - 1) * coeff for its
    coefficient. *)
Theorem calc_energy_no_range_check (offset c p : float)
    (r : gmap string float) (cs1 cs2 : list float)
    (rs1 rs2 : list (gmap string float)) :
  r !! "0" = Some p ->
  B64.in_unit_interval p = false ->
  length cs1 = length rs1 ->
  B64.calc_energy offset (cs1 ++ c :: cs2) (rs1 ++ r :: rs2)
  <> Raised InvalidResult
  /\ B64.calc_energy offset (cs1 ++ c :: cs2) (rs1 ++ r :: rs2)
     = Returned
         (B64.sum (B64.comprehension cs1 rs1
                   ++ ((2 * p - 1) * c)%float :: B64.comprehension cs2 rs2)
          + offset)%float.
Proof.
  intros Hp _ Hlen. split; [discriminate|].
  unfold B64.calc_energy.
  rewrite (b64_comprehension_app cs1 (c :: cs2) rs1 (r :: rs2) Hlen).
  change (B64.comprehension (c :: cs2) (r :: rs2))
    with (((2 * B64.get r "0" 0.0 - 1) * c)%float
          :: B64.comprehension cs2 rs2).
  unfold B64.get. rewrite Hp. reflexivity.
Qed.

Lemma calc_energy_no_range_check_witness :
  B64.in_unit_interval 1.5%float = false
  /\ B64.calc_energy (-1.1)%float [0.5; 0.1; 0.3]%float
       [ {["0" := 1.0%float]}; {["0" := 1.5%float]}; {["0" := 1.0%float]} ]
     <> Raised InvalidResult
  /\ B64.calc_energy (-1.1)%float [0.5; 0.1; 0.3]%float
       [ {["0" := 1.0%float]}; {["0" := 1.5%float]}; {["0" := 1.0%float]} ]
     = Returned
         (B64.sum (B64.comprehension [0.5%float] [ {["0" := 1.0%float]} ]
                   ++ ((2 * 1.5 - 1) * 0.1)%float
                      :: B64.comprehension [0.3%float]
                           [ {["0" := 1.0%float]} ])
          + -1.1)%float.
Proof.
  split; [reflexivity|].
  apply (calc_energy_no_range_check (-1.1)%float 0.1%float 1.5%float
           {["0" := 1.5%float]} [0.5%float] [0.3%float]
           [ {["0" := 1.0%float]} ] [ {["0" := 1.0%float]} ]);
    reflexivity.
Defined.

(** ** Boundary results *)

(** C8. At any place in the aligned sequences, a result with frequency 1.0
    for "0" puts +coefficient into the list that [calc_energy] sums, a
    result with frequency 0.0 for "0" puts -coefficient there, and a result
    with no "0" label is read as frequency 0.0 and so puts -coefficient
    there too. *)
Theorem boundary_contributions (offset c : Q) (r1 r0 rn : gmap string Q)
    (cs1 cs2 : list Q) (rs1 rs2 : list (gmap string Q)) :
  r1 !! "0" = Some 1.0 ->
  r0 !! "0" = Some 0.0 ->
  rn !! "0" = None ->
  length cs1 = length rs1 ->
  (exists t,
      calc_energy offset (cs1 ++ c :: cs2) (rs1 ++ r1 :: rs2)
      = Returned (Py.sum (contributions cs1 rs1 ++ t :: contributions cs2 rs2)
                  + offset)
      /\ t == c)
  /\ (exists t,
        calc_energy offset (cs1 ++ c :: cs2) (rs1 ++ r0 :: rs2)
        = Returned (Py.sum (contributions cs1 rs1
                            ++ t :: contributions cs2 rs2)
                    + offset)
        /\ t == - c)
  /\ Py.get rn "0" 0.0 = 0.0
  /\ (exists t,
        calc_energy offset (cs1 ++ c :: cs2) (rs1 ++ rn :: rs2)
        = Returned (Py.sum (contributions cs1 rs1
                            ++ t :: contributions cs2 rs2)
                    + offset)
        /\ t == - c).
Proof.
  intros H1 H0 Hn Hlen.
  assert (Hsplit : forall r,
    calc_energy offset (cs1 ++ c :: cs2) (rs1 ++ r :: rs2)
    = Returned (Py.sum (contributions cs1 rs1
                        ++ (2 * Py.get r "0" 0.0 - 1) * c
                           :: contributions cs2 rs2)
                + offset)).
  { intros r. unfold calc_energy.
    rewrite (contributions_app cs1 (c :: cs2) rs1 (r :: rs2) Hlen).
    reflexivity. }
  split; [|split; [|split]].
  - eexists. split; [apply Hsplit|].
    unfold Py.get. rewrite H1. ring.
  - eexists. split; [apply Hsplit|].
    unfold Py.get. rewrite H0. ring.
  - unfold Py.get. rewrite Hn. reflexivity.
  - eexists. split; [apply Hsplit|].
    unfold Py.get. rewrite Hn. ring.
Qed.

Lemma boundary_contributions_witness :
  (exists t,
      calc_energy (-1.1) ([0.25] ++ 0.5 :: [-0.3])
                  ([ {["0" := 0.5]} ] ++ {["0" := 1.0]} :: [ ∅ ])
      = Returned (Py.sum (contributions [0.25] [ {["0" := 0.5]} ]
                          ++ t :: contributions [-0.3] [ ∅ ])
                  + -1.1)
      /\ t == 0.5)
  /\ Py.get ∅ "0" 0.0 = 0.0.
Proof.
  destruct (boundary_contributions (-1.1) 0.5
              {["0" := 1.0]} {["0" := 0.0]} ∅
              [0.25] [-0.3] [ {["0" := 0.5]} ] [ ∅ ])
    as (H1 & _ & Hn & _); try reflexivity.
  split; assumption.
Defined.

(** ** Algebraic properties *)

Lemma contributions_zero (coeffs : list Q) (results : list (gmap string Q)) :
  Forall (fun r => Py.get r "0" 0.0 == 0.5) results ->
  Forall (fun x => x == 0) (contributions coeffs results).
Proof.
  unfold Py.zip.
  intros Hall; revert coeffs.
  induction Hall as [|r results Hr _ IH]; intros [|c coeffs];
    cbn [combine map]; constructor.
  - rewrite Hr. vm_compute. reflexivity.
  - apply IH.
Qed.

(** C9. If every result reports frequency 0.5 for "0", then every signed
    value is 0, the sum without the offset is 0, and [calc_energy] returns
    the offset, for every coefficient sequence and every offset. *)
Theorem half_frequency_gives_offset (offset : Q) (coeffs : list Q)
    (results : list (gmap string Q)) :
  Forall (fun r => Py.get r "0" 0.0 == 0.5) results ->
  (forall i, (i < length results)%nat -> signed_value results i == 0)
  /\ Py.sum (contributions coeffs results) == 0
  /\ Returns (calc_energy offset coeffs results) offset.
Proof.
  intros Hall. split; [|split].
  - intros i Hi. unfold signed_value.
    destruct (lookup_lt_is_Some_2 results i Hi) as [r Hr].
    rewrite (nth_lookup_Some results i ∅ r Hr).
    rewrite (proj1 (Forall_lookup _ results) Hall i r Hr).
    vm_compute. reflexivity.
  - apply sum_zeros, contributions_zero, Hall.
  - unfold calc_energy, Returns.
    rewrite (sum_zeros _ (contributions_zero coeffs results Hall)).
    ring.
Qed.

Lemma half_frequency_gives_offset_witness :
  Returns (calc_energy (-1.1) [0.5; -0.3]
                       [ {["0" := 0.5]}; {["0" := 0.5; "1" := 0.5]} ])
          (-1.1).
Proof.
  apply (half_frequency_gives_offset (-1.1) [0.5; -0.3]
           [ {["0" := 0.5]}; {["0" := 0.5; "1" := 0.5]} ]).
  repeat constructor.
Defined.

Lemma sum_contributions_scale (k : Q) (coeffs : list Q)
    (results : list (gmap string Q)) :
  Py.sum (contributions (map (Qmult k) coeffs) results)
  == k * Py.sum (contributions coeffs results).
Proof.
  unfold Py.zip.
  revert results; induction coeffs as [|c coeffs IH]; intros [|r results];
    cbn [map combine]; try (unfold Py.sum; cbn; ring).
  rewrite !sum_cons, IH. ring.
Qed.

(** C10, as stated, fails in the notebook's arithmetic: with offset 1, the
    one coefficient 2^-60, the result {"0": 1.0} and k = 2^60, the output
    minus the offset is 0 (the sum is lost in the offset), and it is 1 for
    the coefficient multiplied by k, which is not k * 0. *)
Lemma linearity_fails_in_binary64 :
  let offset := 1%float in
  let coeff := 0x1p-60%float in
  let k := 0x1p60%float in
  let results : list (gmap string float) := [ {["0" := 1.0%float]} ] in
  exists v v',
    B64.calc_energy offset [coeff] results = Returned v
    /\ B64.calc_energy offset (map (PrimFloat.mul k) [coeff]) results
       = Returned v'
    /\ (v' - offset)%float = 1%float
    /\ (k * (v - offset))%float = 0%float
    /\ (v' - offset =? k * (v - offset))%float = false.
Proof.
  cbv zeta. do 2 eexists.
  split; [vm_compute; reflexivity|].
  split; [vm_compute; reflexivity|].
  repeat split; vm_compute; reflexivity.
Qed.

(** C10, amended. In exact arithmetic [calc_energy] is linear in the
    coefficients: multiplying every coefficient by [k] multiplies the
    output minus the offset by [k].  In the notebook's binary64 arithmetic
    multiplying every coefficient by [k] puts (2 * p - 1) * (k * coeff) in
    the place of each summed term (2 * p - 1) * coeff, every product, the
    sum and the addition of the offset being rounded; the output minus the
    offset is then [k] times the former one up to rounding only. *)
Theorem calc_energy_linear :
  (forall (k offset : Q) (coeffs : list Q) (results : list (gmap string Q)),
      exists v v',
        calc_energy offset coeffs results = Returned v
        /\ calc_energy offset (map (Qmult k) coeffs) results = Returned v'
        /\ v' - offset == k * (v - offset))
  /\ (forall (k offset : float) (coeffs : list float)
             (results : list (gmap string float)),
        B64.calc_energy offset (map (PrimFloat.mul k) coeffs) results
        = Returned
            (B64.sum
               (map (fun '(coeff, res) =>
                       (2 * B64.get res "0" 0.0 - 1) * (k * coeff))%float
                    (Py.zip coeffs results))
             + offset)%float).
Proof.
  split.
  - intros k offset coeffs results.
    unfold calc_energy. do 2 eexists. split; [reflexivity|].
    split; [reflexivity|].
    rewrite sum_contributions_scale. ring.
  - intros k offset coeffs results.
    unfold B64.calc_energy, B64.comprehension, Py.zip. do 3 f_equal.
    revert results; induction coeffs as [|c coeffs IH]; intros [|r results];
      try reflexivity.
    cbn [map combine]. rewrite IH. reflexivity.
Qed.

(** * Properties of the cell that builds [coeffs] *)

Section ExpanderFacts.

Context {OpId Coeff : Type}.
Variable E : Coeff -> nat -> list Q.

Lemma for_terms_flat (term_type : nat) (terms : list (OpId * Coeff))
    (coeffs : list Q) :
  for_terms E term_type terms coeffs
  = coeffs ++ flat_map (fun '(qubits, coeff) => E coeff term_type) terms.
Proof.
  unfold for_terms.
  revert coeffs; induction terms as [|[qubits coeff] terms IH];
    intros coeffs; cbn [fold_left flat_map].
  - symmetry; apply app_nil_r.
  - rewrite IH, <- app_assoc. reflexivity.
Qed.

Lemma outer_loop_flat (pairs : list (nat * list (OpId * Coeff)))
    (coeffs : list Q) :
  fold_left
    (fun coeffs '(term_type, terms) => for_terms E term_type terms coeffs)
    pairs coeffs
  = coeffs
    ++ flat_map
         (fun '(term_type, terms) =>
            flat_map (fun '(qubits, coeff) => E coeff term_type) terms)
         pairs.
Proof.
  revert coeffs; induction pairs as [|[term_type terms] pairs IH];
    intros coeffs; cbn [fold_left flat_map].
  - symmetry; apply app_nil_r.
  - rewrite IH, for_terms_flat, <- app_assoc. reflexivity.
Qed.

(** The cell returns the expansions of all pairs, in order. *)
Lemma coeffs_cell_expansions (fermion_terms : list (list (OpId * Coeff))) :
  coeffs_cell E fermion_terms = Returned (expansions E fermion_terms).
Proof.
  unfold coeffs_cell, expansions.
  rewrite outer_loop_flat. reflexivity.
Qed.

End ExpanderFacts.

(** [enumerate] pairs each element with its index. *)
Lemma enumerate_from_lookup {A : Type} (xs : list A) (start i : nat) (x : A) :
  In (i, x) (combine (seq start (length xs)) xs) ->
  (start <= i)%nat /\ xs !! (i - start)%nat = Some x.
Proof.
  revert start; induction xs as [|y xs IH]; intros start; cbn [length seq combine].
  - intros [].
  - intros [Heq | Hin].
    + injection Heq as -> ->. rewrite Nat.sub_diag. split; [lia|reflexivity].
    + destruct (IH _ Hin) as [Hle Hlook]. split; [lia|].
      replace (i - start)%nat with (S (i - S start)) by lia. exact Hlook.
Qed.

Lemma enumerate_lookup {A : Type} (xs : list A) (i : nat) (x : A) :
  In (i, x) (Py.enumerate xs) -> xs !! i = Some x.
Proof.
  intros Hin. destruct (enumerate_from_lookup xs 0 i x Hin) as [_ H].
  rewrite Nat.sub_0_r in H. exact H.
Qed.

(** Every entry of the list of expansions comes from the expansion of some
    pair of some term type. *)
Lemma expansions_contributing {OpId Coeff : Type} (E : Coeff -> nat -> list Q)
    (fermion_terms : list (list (OpId * Coeff))) (x : Q) :
  In x (expansions E fermion_terms) ->
  exists term_type terms qubits coeff,
    fermion_terms !! term_type = Some terms
    /\ In (qubits, coeff) terms
    /\ In x (E coeff term_type).
Proof.
  unfold expansions. intros Hin.
  apply in_flat_map in Hin as [[term_type terms] [Hpair Hin]].
  apply in_flat_map in Hin as [[qubits coeff] [Hterm Hin]].
  exists term_type, terms, qubits, coeff.
  split; [apply enumerate_lookup; assumption|]. split; assumption.
Qed.

Lemma lookup_enumerate_from {A : Type} (xs : list A) (start i : nat) (x : A) :
  xs !! i = Some x -> In ((start + i)%nat, x) (combine (seq start (length xs)) xs).
Proof.
  revert start i; induction xs as [|y xs IH]; intros start [|i];
    cbn [length seq combine]; try discriminate.
  - intros [= ->]. left. f_equal. lia.
  - intros Hlook. right.
    replace (start + S i)%nat with (S start + i)%nat by lia.
    apply IH, Hlook.
Qed.

(** The list of expansions read off the coefficients alone. *)
Lemma expansions_by_coefficients {OpId Coeff : Type}
    (E : Coeff -> nat -> list Q) (fermion_terms : list (list (OpId * Coeff))) :
  expansions E fermion_terms
  = flat_map
      (fun '(term_type, coefficients) =>
         flat_map (fun coeff => E coeff term_type) coefficients)
      (Py.enumerate (map (map snd) fermion_terms)).
Proof.
  unfold expansions, Py.enumerate. rewrite length_map.
  generalize 0%nat.
  induction fermion_terms as [|terms fermion_terms IH]; intros start;
    cbn [length seq map combine flat_map]; [reflexivity|].
  rewrite IH. f_equal.
  clear. induction terms as [|[qubits coeff] terms IH];
    cbn [map flat_map snd]; [reflexivity|].
  rewrite IH. reflexivity.
Qed.

(** X14. The cell adds no entry of its own: every entry of [coeffs], at
    whatever index, is an entry of the expansion of some pair of some term
    type of [fermion_terms]. *)
Theorem coeffs_entries_come_from_pairs {OpId Coeff : Type}
    (E : Coeff -> nat -> list Q)
    (fermion_terms : list (list (OpId * Coeff)))
    (coeffs : list Q) (n_op : nat) (x : Q) :
  coeffs_cell E fermion_terms = Returned coeffs ->
  coeffs !! n_op = Some x ->
  exists term_type terms qubits coeff,
    fermion_terms !! term_type = Some terms
    /\ In (qubits, coeff) terms
    /\ In x (E coeff term_type).
Proof.
  rewrite coeffs_cell_expansions. intros [= <-] Hx.
  apply expansions_contributing.
  apply list_elem_of_In, list_elem_of_lookup. exists n_op. exact Hx.
Qed.

Lemma coeffs_entries_come_from_pairs_witness :
  exists term_type terms qubits coeff,
    [ [ (3%Z, 0.5); (4%Z, 0.25) ]; []; [ (5%Z, -0.3) ] ] !! term_type
    = Some terms
    /\ In (qubits, coeff) terms
    /\ In (-0.3) (repeated sample_arity coeff term_type).
Proof.
  apply (coeffs_entries_come_from_pairs (repeated sample_arity)
           [ [ (3%Z, 0.5); (4%Z, 0.25) ]; []; [ (5%Z, -0.3) ] ]
           [0.5; 0.25; -0.3; -0.3] 3 (-0.3));
    reflexivity.
Defined.

(** C6, as stated, fails: two terms with the operator ID 99, outside the
    range 0..1 of an encoding with two operators, and with the different
    nonzero coefficients 0.5 and 0.25, raise no InvalidEncoding; both
    coefficients are returned. *)
Lemma invalid_encoding_not_raised :
  let fermion_terms : list (list (Z * Q)) := [ [ (99%Z, 0.5); (99%Z, 0.25) ] ] in
  let E := repeated (fun _ => 1%nat) in
  total_operator_count (fun _ => 1%nat) fermion_terms = 2%nat
  /\ ~ (0 <= 99 < 2)%Z
  /\ ~ 0.5 == 0.25 /\ ~ 0.5 == 0 /\ ~ 0.25 == 0
  /\ coeffs_cell E fermion_terms = Returned [0.5; 0.25]
  /\ coeffs_cell E fermion_terms <> Raised InvalidEncoding.
Proof.
  cbv zeta. repeat split; try discriminate; lia.
Qed.

(** C6, amended. The cell checks nothing: whatever the operator IDs of the
    input, out of range or shared by terms with different coefficients, it
    raises no InvalidEncoding and returns the expansions of all pairs in
    term-type order and then pair order; nothing is overwritten, the
    expansion of every pair is part of the list. *)
Theorem coeffs_cell_no_validation {OpId Coeff : Type}
    (E : Coeff -> nat -> list Q) (fermion_terms : list (list (OpId * Coeff))) :
  coeffs_cell E fermion_terms <> Raised InvalidEncoding
  /\ coeffs_cell E fermion_terms = Returned (expansions E fermion_terms)
  /\ forall term_type terms qubits coeff x,
       fermion_terms !! term_type = Some terms ->
       In (qubits, coeff) terms ->
       In x (E coeff term_type) ->
       In x (expansions E fermion_terms).
Proof.
  split; [discriminate|]. split; [apply coeffs_cell_expansions|].
  intros term_type terms qubits coeff x Hterms Hpair Hx.
  unfold expansions. apply in_flat_map.
  exists (term_type, terms). split.
  - apply (lookup_enumerate_from fermion_terms 0 term_type terms Hterms).
  - apply in_flat_map. exists (qubits, coeff). split; assumption.
Qed.

(** C7. The cell ignores the [qubits] component of every pair: two inputs
    that differ only there give the same list, which is a function of the
    coefficients, in term-type order and then pair order, and of
    [ExpandedCoefficients_] alone. *)
Theorem coeffs_ignore_operator_ids {OpId Coeff : Type}
    (E : Coeff -> nat -> list Q)
    (fermion_terms fermion_terms' : list (list (OpId * Coeff))) :
  map (map snd) fermion_terms = map (map snd) fermion_terms' ->
  coeffs_cell E fermion_terms = coeffs_cell E fermion_terms'
  /\ coeffs_cell E fermion_terms
     = Returned
         (flat_map
            (fun '(term_type, coefficients) =>
               flat_map (fun coeff => E coeff term_type) coefficients)
            (Py.enumerate (map (map snd) fermion_terms))).
Proof.
  intros Hsame.
  rewrite !coeffs_cell_expansions, !expansions_by_coefficients, Hsame.
  split; reflexivity.
Qed.

Lemma coeffs_ignore_operator_ids_witness :
  coeffs_cell (repeated sample_arity)
              [ [ (3%Z, 0.5); (4%Z, 0.25) ]; [ (5%Z, -0.3) ] ]
  = coeffs_cell (repeated sample_arity)
                [ [ (99%Z, 0.5); (99%Z, 0.25) ]; [ ((-1)%Z, -0.3) ] ].
Proof.
  apply (coeffs_ignore_operator_ids (repeated sample_arity)
           [ [ (3%Z, 0.5); (4%Z, 0.25) ]; [ (5%Z, -0.3) ] ]
           [ [ (99%Z, 0.5); (99%Z, 0.25) ]; [ ((-1)%Z, -0.3) ] ]).
  reflexivity.
Defined.

(** * Properties of the cells that submit the jobs and collect the results *)

Lemma zero_literal : 0.0 == 0.
Proof. reflexivity. Qed.

Lemma nonzero_spec (coeff : Q) : nonzero coeff = true <-> ~ coeff == 0.
Proof.
  unfold nonzero. rewrite negb_true_iff, <- zero_literal. split.
  - apply Qeq_bool_neq.
  - intros H. destruct (Qeq_bool coeff 0.0) eqn:Hb; [|reflexivity].
    apply Qeq_bool_iff in Hb. contradiction.
Qed.

Lemma nonzero_false (coeff : Q) : nonzero coeff = false <-> coeff == 0.
Proof.
  unfold nonzero. rewrite negb_false_iff, <- zero_literal.
  apply Qeq_bool_iff.
Qed.

Lemma filter_enumerate_from (start : nat) (coeffs : list Q) :
  map fst (List.filter (fun '(n_op, coeff) => nonzero coeff)
                       (combine (seq start (length coeffs)) coeffs))
  = ops_from start coeffs.
Proof.
  revert start; induction coeffs as [|c coeffs IH]; intros start;
    cbn [length seq combine List.filter ops_from map]; [reflexivity|].
  destruct (nonzero c); cbn [map fst]; rewrite IH; reflexivity.
Qed.

Lemma nonzero_ops_from (coeffs : list Q) :
  nonzero_ops coeffs = ops_from 0 coeffs.
Proof. apply filter_enumerate_from. Qed.

Lemma ops_from_In (start n_op : nat) (coeffs : list Q) :
  In n_op (ops_from start coeffs)
  <-> (start <= n_op)%nat
      /\ exists c, coeffs !! (n_op - start)%nat = Some c /\ ~ c == 0.
Proof.
  revert start; induction coeffs as [|c coeffs IH]; intros start;
    cbn [ops_from].
  - split; [intros []|intros [_ (c & Hc & _)]; discriminate].
  - assert (Hrest : In n_op (ops_from (S start) coeffs)
                    <-> (start < n_op)%nat
                        /\ exists c', (c :: coeffs) !! (n_op - start)%nat = Some c'
                                      /\ ~ c' == 0).
    { rewrite IH. split; intros [Hle (c' & Hc' & Hnz)]; (split; [lia|]);
        exists c'; (split; [|assumption]).
      - replace (n_op - start)%nat with (S (n_op - S start)) by lia. exact Hc'.
      - replace (n_op - start)%nat with (S (n_op - S start)) in Hc' by lia.
        exact Hc'. }
    destruct (nonzero c) eqn:Hc.
    + cbn [In]. rewrite Hrest. split.
      * intros [<- | [Hlt H]]; [|split; [lia|exact H]].
        split; [lia|]. rewrite Nat.sub_diag. exists c.
        split; [reflexivity|apply nonzero_spec, Hc].
      * intros [Hle (c' & Hc' & Hnz)].
        destruct (decide (start = n_op)) as [->|Hne]; [left; reflexivity|].
        right. split; [lia|]. exists c'. split; assumption.
    + rewrite Hrest. split.
      * intros [Hlt H]. split; [lia|exact H].
      * intros [Hle (c' & Hc' & Hnz)].
        destruct (decide (start = n_op)) as [->|Hne].
        -- rewrite Nat.sub_diag in Hc'. injection Hc' as <-.
           apply nonzero_false in Hc. contradiction.
        -- split; [lia|]. exists c'. split; assumption.
Qed.

Lemma ops_from_sorted (start : nat) (coeffs : list Q) :
  StronglySorted lt (ops_from start coeffs).
Proof.
  revert start; induction coeffs as [|c coeffs IH]; intros start;
    cbn [ops_from]; [constructor|].
  destruct (nonzero c); [|apply IH].
  constructor; [apply IH|].
  apply Forall_forall. intros n Hn.
  apply list_elem_of_In, ops_from_In in Hn. lia.
Qed.

Lemma ops_from_length (start : nat) (coeffs : list Q) :
  (length (ops_from start coeffs) <= length coeffs)%nat
  /\ (length (ops_from start coeffs) = length coeffs
      <-> Forall (fun c => ~ c == 0) coeffs).
Proof.
  revert start; induction coeffs as [|c coeffs IH]; intros start;
    cbn [ops_from length].
  - split; [lia|]. split; [constructor|reflexivity].
  - destruct (IH (S start)) as [Hle Hiff].
    destruct (nonzero c) eqn:Hc; cbn [length].
    + split; [lia|]. rewrite Forall_cons, <- Hiff, <- nonzero_spec.
      split; [intros [= H]; split; assumption|intros [_ ->]; reflexivity].
    + split; [lia|]. split; [lia|].
      intros H. apply Forall_cons in H as [H _].
      apply nonzero_false in Hc. contradiction.
Qed.

Lemma ops_from_all (start : nat) (coeffs : list Q) :
  Forall (fun c => ~ c == 0) coeffs ->
  ops_from start coeffs = seq start (length coeffs).
Proof.
  intros Hall; revert start.
  induction Hall as [|c coeffs Hc _ IH]; intros start;
    cbn [ops_from length seq]; [reflexivity|].
  apply nonzero_spec in Hc. rewrite Hc, IH. reflexivity.
Qed.

(** The place of an operator in the list of jobs is the number of nonzero
    coefficients before it. *)
Lemma ops_from_position (start k n_op : nat) (coeffs : list Q) :
  ops_from start coeffs !! k = Some n_op ->
  (start <= n_op)%nat
  /\ k = length (ops_from start (take (n_op - start) coeffs)).
Proof.
  revert start k; induction coeffs as [|c coeffs IH]; intros start k;
    cbn [ops_from]; [discriminate|].
  destruct (nonzero c) eqn:Hc.
  - destruct k as [|k]; cbn [lookup list_lookup].
    + intros [= <-]. rewrite Nat.sub_diag. split; [lia|reflexivity].
    + intros Hk. destruct (IH _ _ Hk) as [Hle ->]. split; [lia|].
      replace (n_op - start)%nat with (S (n_op - S start)) by lia.
      cbn [take ops_from]. rewrite Hc. reflexivity.
  - intros Hk. destruct (IH _ _ Hk) as [Hle ->]. split; [lia|].
    replace (n_op - start)%nat with (S (n_op - S start)) by lia.
    cbn [take ops_from]. rewrite Hc. reflexivity.
Qed.

Section JobsFacts.

Context {Job JobId : Type}.
Variable submit : nat -> nat -> string -> Job.
Variable job_id : Job -> JobId.
Variable output : JobId -> gmap string Q.

Lemma jobs_cell_ops (coeffs : list Q) :
  jobs_cell submit coeffs
  = map (fun n_op => submit n_op 1000 (jobName n_op)) (nonzero_ops coeffs).
Proof.
  unfold jobs_cell, nonzero_ops. rewrite map_map.
  apply map_ext. intros [n_op coeff]. reflexivity.
Qed.

Lemma results_cell_ops (coeffs : list Q) :
  results_cell job_id output (jobs_cell submit coeffs)
  = map (measured submit job_id output) (nonzero_ops coeffs).
Proof.
  unfold results_cell. rewrite jobs_cell_ops, map_map. reflexivity.
Qed.

(** X1. One job is submitted for each index of [coeffs] whose coefficient
    is not zero, and for no other; the jobs are submitted in increasing
    order of the index, each with its own index as [nOp]. *)
Theorem jobs_for_nonzero_coefficients (coeffs : list Q) :
  jobs_cell submit coeffs
  = map (fun n_op => submit n_op 1000 (jobName n_op)) (nonzero_ops coeffs)
  /\ (forall n_op,
        In n_op (nonzero_ops coeffs)
        <-> exists c, coeffs !! n_op = Some c /\ ~ c == 0)
  /\ StronglySorted lt (nonzero_ops coeffs).
Proof.
  split; [apply jobs_cell_ops|]. rewrite nonzero_ops_from. split.
  - intros n_op. rewrite ops_from_In, Nat.sub_0_r.
    split; [intros [_ H]; exact H|intros H; split; [lia|exact H]].
  - apply ops_from_sorted.
Qed.

(** X2. There are never more results than coefficients, and there are as
    many exactly when no coefficient is zero. *)
Theorem results_count (coeffs : list Q) :
  (length (results_cell job_id output (jobs_cell submit coeffs))
   <= length coeffs)%nat
  /\ (length (results_cell job_id output (jobs_cell submit coeffs))
      = length coeffs
      <-> Forall (fun c => ~ c == 0) coeffs).
Proof.
  rewrite results_cell_ops, length_map, nonzero_ops_from.
  apply ops_from_length.
Qed.

(** X3. When no coefficient is zero the results are index-aligned with the
    coefficients: the notebook's energy is the sum over all i of
    (2 * P_i("0") - 1) * coeffs[i] plus the offset, P_i being what the
    service reports for operator i. *)
Theorem energy_cell_aligned (energy_offset : Q) (coeffs : list Q) :
  Forall (fun c => ~ c == 0) coeffs ->
  energy_cell submit job_id output energy_offset coeffs
  = Returned
      (spec_energy (length coeffs) coeffs
         (map (measured submit job_id output) (seq 0 (length coeffs)))
         energy_offset).
Proof.
  intros Hall. unfold energy_cell.
  rewrite results_cell_ops, nonzero_ops_from, (ops_from_all 0 coeffs Hall).
  rewrite calc_energy_min, length_map, length_seq, Nat.min_id.
  reflexivity.
Qed.

(** X4. The result of the job of operator [n_op] stands at the place [k]
    that is the number of nonzero coefficients before [n_op], and
    [calc_energy] multiplies it by [coeffs[k]]: by its own coefficient
    exactly when no coefficient before [n_op] is zero, and by an earlier one
    otherwise. *)
Theorem result_position (coeffs : list Q) (k n_op : nat) :
  nonzero_ops coeffs !! k = Some n_op ->
  results_cell job_id output (jobs_cell submit coeffs) !! k
  = Some (measured submit job_id output n_op)
  /\ k = length (nonzero_ops (take n_op coeffs))
  /\ (k <= n_op)%nat
  /\ (k = n_op <-> Forall (fun c => ~ c == 0) (take n_op coeffs))
  /\ exists c_k,
       coeffs !! k = Some c_k
       /\ contributions coeffs
            (results_cell job_id output (jobs_cell submit coeffs)) !! k
          = Some ((2 * Py.get (measured submit job_id output n_op) "0" 0.0 - 1)
                  * c_k).
Proof.
  intros Hk.
  assert (Hres : results_cell job_id output (jobs_cell submit coeffs) !! k
                 = Some (measured submit job_id output n_op)).
  { rewrite results_cell_ops. change map with (@fmap list _).
    rewrite list_lookup_fmap, Hk. reflexivity. }
  assert (Hin : (n_op < length coeffs)%nat).
  { assert (In n_op (nonzero_ops coeffs)) as Hin
      by (apply list_elem_of_In, list_elem_of_lookup; eauto).
    rewrite nonzero_ops_from in Hin.
    apply ops_from_In in Hin as [_ (c & Hc & _)].
    rewrite Nat.sub_0_r in Hc. apply lookup_lt_Some in Hc. exact Hc. }
  rewrite nonzero_ops_from in Hk.
  destruct (ops_from_position 0 k n_op coeffs Hk) as [_ Hpos].
  rewrite Nat.sub_0_r in Hpos.
  destruct (ops_from_length 0 (take n_op coeffs)) as [Hle Hiff].
  rewrite length_take, Nat.min_l in Hle, Hiff by lia.
  split; [exact Hres|]. rewrite nonzero_ops_from.
  split; [exact Hpos|]. split; [lia|]. split; [rewrite Hpos; exact Hiff|].
  destruct (lookup_lt_is_Some_2 coeffs k) as [c_k Hc]; [lia|].
  exists c_k. split; [exact Hc|].
  unfold Py.zip. change map with (@fmap list _).
  rewrite list_lookup_fmap.
  assert (Hzip : combine coeffs
                   (results_cell job_id output (jobs_cell submit coeffs)) !! k
                 = Some (c_k, measured submit job_id output n_op)).
  { clear - Hc Hres.
    revert k Hc Hres.
    generalize (results_cell job_id output (jobs_cell submit coeffs)).
    induction coeffs as [|c coeffs IH]; intros [|r rs] [|k] Hc Hr;
      try discriminate; cbn [combine].
    - injection Hc as ->. injection Hr as ->. reflexivity.
    - apply IH; assumption. }
  rewrite Hzip. reflexivity.
Qed.

Lemma sum_nonzero_from (start : nat) (coeffs : list Q) :
  Py.sum (contributions (List.filter nonzero coeffs)
            (map (measured submit job_id output) (ops_from start coeffs)))
  == Py.sum (contributions coeffs
               (map (measured submit job_id output)
                    (seq start (length coeffs)))).
Proof.
  unfold Py.zip.
  revert start; induction coeffs as [|c coeffs IH]; intros start;
    cbn [List.filter ops_from length seq map combine]; [reflexivity|].
  rewrite (sum_cons _ (map _ (combine coeffs _))), <- IH.
  destruct (nonzero c) eqn:Hc; cbn [map combine].
  - rewrite sum_cons. reflexivity.
  - apply nonzero_false in Hc. rewrite Hc. ring.
Qed.

(** X5. The results are index-aligned with the nonzero coefficients:
    [calc_energy] on the coefficients that are not zero and the collected
    results gives the energy that all coefficients would give with a result
    for every operator, a zero coefficient adding nothing. *)
Theorem energy_of_nonzero_coefficients (energy_offset : Q) (coeffs : list Q) :
  exists v,
    calc_energy energy_offset (List.filter nonzero coeffs)
                (results_cell job_id output (jobs_cell submit coeffs))
    = Returned v
    /\ Returns
         (calc_energy energy_offset coeffs
            (map (measured submit job_id output) (seq 0 (length coeffs))))
         v.
Proof.
  eexists. split; [reflexivity|].
  unfold calc_energy, Returns.
  rewrite results_cell_ops, nonzero_ops_from, sum_nonzero_from.
  reflexivity.
Qed.

End JobsFacts.

Lemma energy_cell_aligned_witness :
  Forall (fun c => ~ c == 0) [0.5; -0.3; 0.25]
  /\ energy_cell sample_submit fst sample_output (-1.1) [0.5; -0.3; 0.25]
     = Returned
         (spec_energy 3 [0.5; -0.3; 0.25]
            (map (measured sample_submit fst sample_output) (seq 0 3))
            (-1.1)).
Proof.
  assert (H : Forall (fun c => ~ c == 0) [0.5; -0.3; 0.25])
    by (repeat constructor; discriminate).
  split; [exact H|].
  apply (energy_cell_aligned sample_submit fst sample_output (-1.1)
           [0.5; -0.3; 0.25] H).
Defined.

(** With a zero coefficient at index 1, the job of operator 2 stands at
    place 1 and its result is multiplied by the zero. *)
Lemma result_position_witness :
  nonzero_ops [0.5; 0.0; 0.25] !! 1%nat = Some 2%nat
  /\ results_cell fst sample_output (jobs_cell sample_submit [0.5; 0.0; 0.25])
       !! 1%nat
     = Some (measured sample_submit fst sample_output 2)
  /\ (1 <= 2)%nat.
Proof.
  assert (H : nonzero_ops [0.5; 0.0; 0.25] !! 1%nat = Some 2%nat)
    by reflexivity.
  split; [exact H|].
  destruct (result_position sample_submit fst sample_output
              [0.5; 0.0; 0.25] 1 2 H) as (H1 & _ & H2 & _).
  split; assumption.
Defined.

(** * Job names *)

Lemma jobName_inj (n m : nat) : jobName n = jobName m -> n = m.
Proof.
  unfold jobName. intros H.
  apply (inj (String.app "Hamiltonian term ")) in H.
  apply (inj pretty) in H. exact H.
Qed.

(** X6. Different operator indices get different job names, so that the
    jobs submitted by one run of the cell have pairwise different names. *)
Theorem job_names_distinct (coeffs : list Q) :
  (forall n m, jobName n = jobName m -> n = m)
  /\ List.NoDup (map jobName (nonzero_ops coeffs)).
Proof.
  split; [exact jobName_inj|].
  apply Finite.Injective_map_NoDup; [exact jobName_inj|].
  rewrite nonzero_ops_from.
  pose proof (ops_from_sorted 0 coeffs) as Hs.
  induction Hs as [|n ns _ IH Hall]; constructor; [|exact IH].
  intros Hin. rewrite Forall_forall in Hall.
  apply list_elem_of_In, Hall in Hin. lia.
Qed.

(** * Further properties of [calc_energy] *)

(** X7. [calc_energy] reads the label "0" of a result and nothing else: two
    result sequences that agree on "0" place by place give the same energy,
    whatever they hold for "1" or any other label. *)
Theorem only_label_zero_is_read (energy_offset : Q) (coeffs : list Q)
    (results results' : list (gmap string Q)) :
  Forall2 (fun r r' => r !! "0" = r' !! "0") results results' ->
  calc_energy energy_offset coeffs results
  = calc_energy energy_offset coeffs results'.
Proof.
  intros Hsame. unfold calc_energy, Py.zip. do 3 f_equal.
  revert coeffs; induction Hsame as [|r r' rs rs' Hr _ IH]; intros [|c coeffs];
    try reflexivity.
  cbn [combine map]. unfold Py.get. rewrite Hr, IH. reflexivity.
Qed.

Lemma only_label_zero_is_read_witness :
  calc_energy (-1.1) [0.5; -0.3]
    [ {["0" := 0.25; "1" := 0.75]}; {["0" := 1.0; "2" := 7.0]} ]
  = calc_energy (-1.1) [0.5; -0.3] [ {["0" := 0.25]}; {["0" := 1.0]} ].
Proof.
  apply (only_label_zero_is_read (-1.1) [0.5; -0.3]
           [ {["0" := 0.25; "1" := 0.75]}; {["0" := 1.0; "2" := 7.0]} ]
           [ {["0" := 0.25]}; {["0" := 1.0]} ]).
  repeat constructor.
Defined.

(** * Further properties of the cell that builds [coeffs] *)

Lemma enumerate_from_app {A : Type} (start : nat) (xs ys : list A) :
  combine (seq start (length (xs ++ ys))) (xs ++ ys)
  = combine (seq start (length xs)) xs
    ++ combine (seq (start + length xs) (length ys)) ys.
Proof.
  revert start; induction xs as [|x xs IH]; intros start;
    cbn [app length seq combine].
  - rewrite Nat.add_0_r. reflexivity.
  - rewrite IH.
    replace (start + S (length xs))%nat with (S start + length xs)%nat by lia.
    reflexivity.
Qed.

Section ExpanderComposition.

Context {OpId Coeff : Type}.
Variable E : Coeff -> nat -> list Q.

Lemma expansions_shift (shift start : nat)
    (fermion_terms : list (list (OpId * Coeff))) :
  flat_map
    (fun '(term_type, terms) =>
       flat_map (fun '(qubits, coeff) => E coeff term_type) terms)
    (combine (seq (shift + start) (length fermion_terms)) fermion_terms)
  = flat_map
      (fun '(term_type, terms) =>
         flat_map (fun '(qubits, coeff) => E coeff (shift + term_type)%nat)
                  terms)
      (combine (seq start (length fermion_terms)) fermion_terms).
Proof.
  revert start; induction fermion_terms as [|terms fermion_terms IH];
    intros start; cbn [length seq combine flat_map]; [reflexivity|].
  f_equal.
  replace (S (shift + start)) with (shift + S start)%nat by lia.
  apply IH.
Qed.

Lemma expansions_app (fermion_terms more : list (list (OpId * Coeff))) :
  expansions E (fermion_terms ++ more)
  = expansions E fermion_terms
    ++ expansions
         (fun coeff term_type =>
            E coeff (length fermion_terms + term_type)%nat)
         more.
Proof.
  unfold expansions, Py.enumerate.
  rewrite enumerate_from_app, flat_map_app. f_equal.
  rewrite <- (expansions_shift (length fermion_terms) 0 more).
  rewrite Nat.add_0_r. reflexivity.
Qed.

(** X9. Term types added after the others leave the coefficients of the
    others, and so their operator indices, as they are: the list for
    [fermion_terms + more] is the list for [fermion_terms] followed by the
    list for [more], the term types of [more] being numbered from
    len(fermion_terms) on. *)
Theorem coeffs_cell_app (fermion_terms more : list (list (OpId * Coeff))) :
  exists coeffs coeffs',
    coeffs_cell E fermion_terms = Returned coeffs
    /\ coeffs_cell
         (fun coeff term_type =>
            E coeff (length fermion_terms + term_type)%nat)
         more
       = Returned coeffs'
    /\ coeffs_cell E (fermion_terms ++ more) = Returned (coeffs ++ coeffs').
Proof.
  do 2 eexists. rewrite !coeffs_cell_expansions, expansions_app.
  repeat split.
Qed.

(** X10. The operator index of a coefficient depends only on what stands
    before its pair: entry [j] of the expansion of a pair of term type
    [len(before)] stands at the index that is the number of coefficients of
    the earlier term types and of the earlier pairs of its own type, plus
    [j], whatever pairs and term types follow. *)
Theorem coefficient_index (before after : list (list (OpId * Coeff)))
    (earlier later : list (OpId * Coeff)) (qubits : OpId) (coeff : Coeff)
    (j : nat) (x : Q) :
  E coeff (length before) !! j = Some x ->
  exists coeffs first,
    coeffs_cell E (before ++ (earlier ++ (qubits, coeff) :: later) :: after)
    = Returned coeffs
    /\ coeffs_cell E (before ++ [earlier]) = Returned first
    /\ coeffs !! (length first + j)%nat = Some x.
Proof.
  intros Hj. do 2 eexists.
  rewrite !coeffs_cell_expansions. split; [reflexivity|].
  split; [reflexivity|].
  change (before ++ (earlier ++ (qubits, coeff) :: later) :: after)
    with (before ++ [earlier ++ (qubits, coeff) :: later] ++ after).
  rewrite app_assoc, (expansions_app (before ++ _) after).
  rewrite !(expansions_app before).
  unfold expansions at 2 4. unfold Py.enumerate.
  cbn [length seq combine flat_map]. rewrite !app_nil_r, Nat.add_0_r.
  rewrite flat_map_app. cbn [flat_map].
  rewrite <- !app_assoc, !length_app.
  rewrite (app_assoc (expansions E before)).
  rewrite <- length_app.
  rewrite lookup_app_r by lia.
  replace (_ + j - _)%nat with j by lia.
  rewrite lookup_app_l by (apply lookup_lt_Some in Hj; exact Hj).
  exact Hj.
Qed.

End ExpanderComposition.

Lemma coefficient_index_witness :
  exists coeffs first,
    coeffs_cell (repeated sample_arity)
      ([ [ (7%Z, 0.5) ]; [] ] ++ ([ (8%Z, 0.25) ] ++ (9%Z, -0.3) :: []) :: [])
    = Returned coeffs
    /\ coeffs_cell (repeated sample_arity)
         ([ [ (7%Z, 0.5) ]; [] ] ++ [ [ (8%Z, 0.25) ] ])
       = Returned first
    /\ coeffs !! (length first + 1)%nat = Some (-0.3).
Proof.
  apply (coefficient_index (repeated sample_arity)
           [ [ (7%Z, 0.5) ]; [] ] [] [ (8%Z, 0.25) ] [] 9%Z (-0.3) 1 (-0.3)).
  reflexivity.
Defined.

(** * Zero coefficients and the alignment of the results *)

Lemma ops_from_zeros (start : nat) (coeffs : list Q) :
  Forall (fun c => c == 0) coeffs -> ops_from start coeffs = [].
Proof.
  intros Hall; revert start.
  induction Hall as [|c coeffs Hc _ IH]; intros start; cbn [ops_from];
    [reflexivity|].
  apply nonzero_false in Hc. rewrite Hc. apply IH.
Qed.

Lemma ops_from_trailing_zeros (start : nat) (coeffs zeros : list Q) :
  Forall (fun c => c == 0) zeros ->
  ops_from start (coeffs ++ zeros) = ops_from start coeffs.
Proof.
  intros Hz; revert start.
  induction coeffs as [|c coeffs IH]; intros start; cbn [app ops_from].
  - apply ops_from_zeros, Hz.
  - rewrite IH. reflexivity.
Qed.

Lemma filter_nonzero_all (coeffs : list Q) :
  Forall (fun c => ~ c == 0) coeffs -> List.filter nonzero coeffs = coeffs.
Proof.
  induction 1 as [|c coeffs Hc _ IH]; cbn [List.filter]; [reflexivity|].
  apply nonzero_spec in Hc. rewrite Hc, IH. reflexivity.
Qed.

Lemma filter_nonzero_zeros (coeffs : list Q) :
  Forall (fun c => c == 0) coeffs -> List.filter nonzero coeffs = [].
Proof.
  induction 1 as [|c coeffs Hc _ IH]; cbn [List.filter]; [reflexivity|].
  apply nonzero_false in Hc. rewrite Hc, IH. reflexivity.
Qed.

Section ZeroCoefficients.

Context {Job JobId : Type}.
Variable submit : nat -> nat -> string -> Job.
Variable job_id : Job -> JobId.
Variable output : JobId -> gmap string Q.

(** X11. When every coefficient is zero, and so also for an empty list of
    coefficients, no job is submitted, there is no result, and the energy
    is the offset. *)
Theorem no_job_gives_offset (energy_offset : Q) (coeffs : list Q) :
  Forall (fun c => c == 0) coeffs ->
  jobs_cell submit coeffs = []
  /\ results_cell job_id output (jobs_cell submit coeffs) = []
  /\ Returns (energy_cell submit job_id output energy_offset coeffs)
             energy_offset.
Proof.
  intros Hz.
  assert (Hjobs : jobs_cell submit coeffs = []).
  { rewrite jobs_cell_ops, nonzero_ops_from, (ops_from_zeros 0 coeffs Hz).
    reflexivity. }
  split; [exact Hjobs|]. unfold energy_cell. rewrite Hjobs.
  split; [reflexivity|].
  unfold results_cell, calc_energy, Py.zip, Returns. cbn [map].
  rewrite combine_nil. unfold Py.sum; cbn. ring.
Qed.

(** X12. Zero coefficients that come after all the others do no harm: the
    results are then aligned with the coefficients that are used, and the
    energy is the one that a result for every operator would give. *)
Theorem trailing_zeros_harmless (energy_offset : Q) (coeffs zeros : list Q) :
  Forall (fun c => ~ c == 0) coeffs ->
  Forall (fun c => c == 0) zeros ->
  exists v,
    energy_cell submit job_id output energy_offset (coeffs ++ zeros)
    = Returned v
    /\ Returns
         (calc_energy energy_offset (coeffs ++ zeros)
            (map (measured submit job_id output)
                 (seq 0 (length (coeffs ++ zeros)))))
         v.
Proof.
  intros Hnz Hz. eexists. split; [reflexivity|].
  unfold calc_energy, Returns.
  rewrite <- (sum_nonzero_from submit job_id output 0 (coeffs ++ zeros)).
  rewrite results_cell_ops, nonzero_ops_from.
  rewrite List.filter_app, (filter_nonzero_all coeffs Hnz),
    (filter_nonzero_zeros zeros Hz), app_nil_r.
  rewrite (ops_from_trailing_zeros 0 coeffs zeros Hz),
    (ops_from_all 0 coeffs Hnz).
  set (results := map (measured submit job_id output) (seq 0 (length coeffs))).
  assert (Hlen : length results = length coeffs)
    by (unfold results; rewrite length_map, length_seq; reflexivity).
  rewrite <- (zip_surplus_l coeffs zeros results) by lia.
  rewrite Hlen, firstn_all. reflexivity.
Qed.

End ZeroCoefficients.

Lemma no_job_gives_offset_witness :
  jobs_cell sample_submit [0.0; 0; -0.0] = []
  /\ Returns (energy_cell sample_submit fst sample_output (-1.1)
                          [0.0; 0; -0.0])
             (-1.1).
Proof.
  destruct (no_job_gives_offset sample_submit fst sample_output (-1.1)
              [0.0; 0; -0.0]) as (H1 & _ & H2).
  - repeat constructor.
  - split; assumption.
Defined.

Lemma trailing_zeros_harmless_witness :
  exists v,
    energy_cell sample_submit fst sample_output (-1.1) ([0.5; -0.3] ++ [0.0])
    = Returned v
    /\ Returns
         (calc_energy (-1.1) ([0.5; -0.3] ++ [0.0])
            (map (measured sample_submit fst sample_output)
                 (seq 0 (length ([0.5; -0.3] ++ [0.0])))))
         v.
Proof.
  apply (trailing_zeros_harmless sample_submit fst sample_output (-1.1)
           [0.5; -0.3] [0.0]).
  - repeat constructor; discriminate.
  - repeat constructor.
Defined.

Lemma ops_from_app (start : nat) (coeffs more : list Q) :
  ops_from start (coeffs ++ more)
  = ops_from start coeffs ++ ops_from (start + length coeffs) more.
Proof.
  revert start; induction coeffs as [|c coeffs IH]; intros start;
    cbn [app ops_from length].
  - rewrite Nat.add_0_r. reflexivity.
  - rewrite IH.
    replace (start + S (length coeffs))%nat
      with (S start + length coeffs)%nat by lia.
    destruct (nonzero c); reflexivity.
Qed.

Section ShiftedResults.

Context {Job JobId : Type}.
Variable submit : nat -> nat -> string -> Job.
Variable job_id : Job -> JobId.
Variable output : JobId -> gmap string Q.

(** X13. A zero coefficient before the last coefficient shifts the
    results: with nonzero coefficients, then a zero, then a last
    coefficient [c], the result of the job of [c] is multiplied by the zero,
    [c] itself is not used, and the energy is the one of the coefficients
    before the zero alone. *)
Theorem zero_before_last_drops_last (energy_offset z c : Q)
    (coeffs : list Q) :
  Forall (fun c => ~ c == 0) coeffs ->
  z == 0 ->
  ~ c == 0 ->
  results_cell job_id output (jobs_cell submit (coeffs ++ [z; c]))
  = results_cell job_id output (jobs_cell submit coeffs)
    ++ [measured submit job_id output (S (length coeffs))]
  /\ exists v,
       energy_cell submit job_id output energy_offset (coeffs ++ [z; c])
       = Returned v
       /\ Returns (energy_cell submit job_id output energy_offset coeffs) v.
Proof.
  intros Hnz Hz Hc.
  assert (Hres :
    results_cell job_id output (jobs_cell submit (coeffs ++ [z; c]))
    = results_cell job_id output (jobs_cell submit coeffs)
      ++ [measured submit job_id output (S (length coeffs))]).
  { rewrite !results_cell_ops, !nonzero_ops_from, ops_from_app.
    cbn [ops_from]. apply nonzero_false in Hz. apply nonzero_spec in Hc.
    rewrite Hz, Hc, map_app. cbn [map]. do 3 f_equal. }
  split; [exact Hres|].
  eexists. split; [reflexivity|].
  unfold energy_cell, calc_energy, Returns. rewrite Hres.
  set (results := results_cell job_id output (jobs_cell submit coeffs)).
  assert (Hlen : length coeffs = length results).
  { unfold results.
    rewrite results_cell_ops, nonzero_ops_from, (ops_from_all 0 coeffs Hnz),
      length_map, length_seq. reflexivity. }
  rewrite (contributions_app coeffs [z; c] results _ Hlen).
  unfold Py.zip at 3. cbn [combine map].
  rewrite sum_app, sum_cons. change (Py.sum []) with 0.
  rewrite Hz. ring.
Qed.

End ShiftedResults.

Lemma zero_before_last_drops_last_witness :
  exists v,
    energy_cell sample_submit fst sample_output (-1.1)
                ([0.5; -0.3] ++ [0.0; 0.25])
    = Returned v
    /\ Returns (energy_cell sample_submit fst sample_output (-1.1)
                            [0.5; -0.3])
               v.
Proof.
  apply (zero_before_last_drops_last sample_submit fst sample_output
           (-1.1) 0.0 0.25 [0.5; -0.3]).
  - repeat constructor; discriminate.
  - reflexivity.
  - discriminate.
Defined.
